(** * ml-service-wrapper: the error taxonomy, the configuration context
      source and the service lifecycle wrapper

    A shallow embedding of
    - [sdk/jnjjobwrapper/jnjjobwrapper/errors.py] (module [errors]) and
    - [src/mlservicewrapper/core/server.py] (module [server]),
    followed by the properties proved about them. *)

From Stdlib Require Import String Ascii List Bool.
From stdpp Require Import base option list gmap strings.

Local Open Scope string_scope.

(** ** The fragment of Python the two files rely on *)

Module Py.

(** Truth value of an optional string: [None] and the empty string are
    falsy, every other string is truthy. *)
Definition truthy (v : option string) : bool :=
  match v with
  | None => false
  | Some s => negb (String.eqb s "")
  end.

(** [v is None] *)
Definition is_None {A : Type} (v : option A) : bool :=
  match v with
  | None => true
  | Some _ => false
  end.

(** [a or b]: [a] when it is truthy, otherwise [b]. *)
Definition or_ (a b : option string) : option string :=
  if truthy a then a else b.

(** [template.format(args...)] for templates whose replacement fields are
    all the auto-numbered [{}] (the only ones the sources use).  [None]
    stands for the [IndexError] of a field without argument. *)
Fixpoint format (template : string) (args : list string) : option string :=
  match template with
  | EmptyString => Some EmptyString
  | String "{" (String "}" rest) =>
      match args with
      | a :: args' => String.append a <$> format rest args'
      | [] => None
      end
  | String c rest => String c <$> format rest args
  end.

(** Exceptions met in [server.py]: the two it raises itself or lets
    through by attribute access, the validator's naming violation, the
    missing-parameter error, and any failure of a service's own code. *)
Inductive Exn : Type :=
| ValueError (msg : string)
| AttributeError (attr : string)
| NamingViolation (name : string)
| MissingParameterError (name : string)
| ServiceFailure (msg : string).

(** How a call ends. *)
Inductive Outcome (A : Type) : Type :=
| Return (a : A)
| Raise (e : Exn).
Arguments Return {A} a.
Arguments Raise {A} e.

(** Code that reads and writes a store [St] and may raise; the store
    written so far survives a raise. *)
Definition M (St A : Type) : Type := St -> Outcome A * St.

Definition ret {St A} (a : A) : M St A := fun st => (Return a, st).

Definition raise {St A} (e : Exn) : M St A := fun st => (Raise e, st).

Definition bind {St A B} (c : M St A) (k : A -> M St B) : M St B :=
  fun st =>
    match c st with
    | (Return a, st') => k a st'
    | (Raise e, st') => (Raise e, st')
    end.

Definition get {St} : M St St := fun st => (Return st, st).

Definition modify {St} (f : St -> St) : M St unit :=
  fun st => (Return tt, f st).

End Py.

Declare Scope py_scope.
Delimit Scope py_scope with py.
Notation "x <~ c ;; k" := (Py.bind c (fun x => k))
  (at level 100, c at next level, right associativity) : py_scope.
Notation "c ;;; k" := (Py.bind c (fun _ => k))
  (at level 100, right associativity) : py_scope.

(** ** errors.py *)

Module errors.

Inductive Class : Type :=
| cls_BadRequestError
| cls_BadParameterError
| cls_BadDatasetError
| cls_DatasetFieldError
| cls_MissingDatasetFieldError.

(** An instance: its class and its attribute dictionary. *)
Record Instance : Type := mkInstance {
  cls : Class;
  attrs : gmap string string
}.

Definition new (c : Class) : Instance := mkInstance c ∅.

Definition setattr (self : Instance) (k v : string) : Instance :=
  mkInstance (cls self) (<[k := v]> (attrs self)).

Definition getattr (self : Instance) (k : string) : option string :=
  attrs self !! k.

(** [message or template.format(args...)]; the template is formatted only
    when [message] is falsy. *)
Definition message_or (message : option string) (template : string)
    (args : list string) : option string :=
  if Py.truthy message then message else Py.format template args.

Definition BadRequestError__init__ (self : Instance) (name : string)
    (message : option string) : option Instance :=
  let self := setattr self "name" name in
  msg ← Py.or_ message (Some "The request was not valid");
  Some (setattr self "message" msg).

Definition BadParameterError__init__ (self : Instance) (name : string)
    (message : option string) : option Instance :=
  msg ← message_or message "The request parameter {} was not valid" [name];
  BadRequestError__init__ self name (Some msg).

Definition BadDatasetError__init__ (self : Instance) (dataset_name : string)
    (message : option string) : option Instance :=
  msg ← message_or message "The input dataset {} was not valid"
          [dataset_name];
  BadRequestError__init__ self dataset_name (Some msg).

Definition DatasetFieldError__init__ (self : Instance)
    (dataset_name field_name : string) (message : option string)
    : option Instance :=
  msg ← message_or message
          "The field {} was not valid for input dataset {}"
          [field_name; dataset_name];
  self ← BadDatasetError__init__ self dataset_name (Some msg);
  Some (setattr self "field_name" field_name).

Definition MissingDatasetFieldError__init__ (self : Instance)
    (dataset_name field_name : string) (message : option string)
    : option Instance :=
  msg ← message_or message
          "The field {} on input dataset {} is required but could not be found!"
          [field_name; dataset_name];
  DatasetFieldError__init__ self dataset_name field_name (Some msg).

(** Instantiation: [Cls(args)] allocates an instance of [Cls] and runs
    [Cls.__init__] on it. *)
Definition BadRequestError name message :=
  BadRequestError__init__ (new cls_BadRequestError) name message.
Definition BadParameterError name message :=
  BadParameterError__init__ (new cls_BadParameterError) name message.
Definition BadDatasetError dataset_name message :=
  BadDatasetError__init__ (new cls_BadDatasetError) dataset_name message.
Definition DatasetFieldError dataset_name field_name message :=
  DatasetFieldError__init__ (new cls_DatasetFieldError)
    dataset_name field_name message.
Definition MissingDatasetFieldError dataset_name field_name message :=
  MissingDatasetFieldError__init__ (new cls_MissingDatasetFieldError)
    dataset_name field_name message.

(** [e.message] of a freshly constructed error; [None] when construction
    failed or the attribute was never set. *)
Definition message_of (e : option Instance) : option string :=
  self ← e; getattr self "message".

End errors.

(** ** server.py *)

Module server.
Import Py.
Local Open Scope py_scope.

(** *** Collaborators declared outside server.py

    [configuration.ServiceConfiguration] is used through
    [has_parameters()] and [parameters()], and the object the latter
    returns through [get_value(name)] and [get_real_path_value(name)];
    they are taken as given. *)

Definition Path : Type := string.

Record Parameters : Type := mkParameters {
  get_value : string -> option string;
  get_real_path_value : string -> option Path
}.

Record ServiceConfiguration : Type := mkServiceConfiguration {
  has_parameters : bool;
  parameters : Parameters
}.

(** A read of the parameter store, kept in a journal so that the order of
    validation and reads can be stated. *)
Inductive Query : Type :=
| QValue (name : string)
| QRealPath (name : string).

Definition read_value (p : Parameters) (name : string)
    : M (list Query) (option string) :=
  fun journal => (Return (get_value p name), (journal ++ [QValue name])%list).

Definition read_real_path_value (p : Parameters) (name : string)
    : M (list Query) (option Path) :=
  fun journal =>
    (Return (get_real_path_value p name), (journal ++ [QRealPath name])%list).

(** Modelled from the spec: [context_sources.NameValidator.raise_if_invalid]
    is not among the sources.  It fails with a naming-violation error when
    the name does not have the canonical form, and has no side effect; the
    canonical form itself is the parameter [is_valid]. *)
Definition raise_if_invalid {St} (is_valid : string -> bool) (name : string)
    : M St unit :=
  if is_valid name then ret tt else raise (NamingViolation name).

(** *** class _ServiceConfigurationServiceContextSource *)

Module _ServiceConfigurationServiceContextSource.

Record t : Type := mk { __parameters : Parameters }.

Definition __init__ (config : ServiceConfiguration) : t :=
  mk (parameters config).

Section Methods.
Variable is_valid : string -> bool.

Definition get_parameter_value (self : t) (name : string)
    (required : bool) (default : option string)
    : M (list Query) (option string) :=
  raise_if_invalid is_valid name ;;;
  v <~ read_value (__parameters self) name ;;
  let val := or_ v default in
  if required && is_None val
  then raise (MissingParameterError name)
  else ret val.

Definition get_parameter_real_path_value (self : t) (name : string)
    (required : bool) : M (list Query) (option Path) :=
  raise_if_invalid is_valid name ;;;
  val <~ read_real_path_value (__parameters self) name ;;
  if required && is_None val
  then raise (MissingParameterError name)
  else ret val.
End Methods.

End _ServiceConfigurationServiceContextSource.

(** *** class SafeServiceWrapper *)

Module SafeServiceWrapper.

(** Values handed to and returned by the service's methods; a context
    object is known by its identity only. *)
Inductive Value : Type :=
| VNone
| VBool (b : bool)
| VStr (s : string)
| VObject (id : nat).

Section Wrapper.
(** The state the wrapped service's own code works on. *)
Variable S : Type.

(** What a call hands back: a plain value, or a coroutine object
    whose body has not started and runs when it is awaited. *)
Inductive Object : Type :=
| Plain (v : Value)
| Coroutine (body : M S Value).

(** A method of the service, already bound to the instance. *)
Definition Callable : Type := list Value -> M S Object.

(** [def f(self, ...)]: the body runs during the call. *)
Definition def (body : list Value -> M S Value) : Callable :=
  fun args => v <~ body args ;; ret (Plain v).

(** [async def f(self, ...)]: the call only builds the coroutine. *)
Definition async_def (body : list Value -> M S Value) : Callable :=
  fun args => ret (Coroutine (body args)).

(** The wrapped service: the methods it has, by attribute name.  A bound
    method is truthy, so [getattr(inst, func_name, None)] followed by
    [if not val] tests whether the attribute is there. *)
Definition Service : Type := gmap string Callable.

(** The wrapper's two attributes, next to the state of the service
    they refer to. *)
Record Store : Type := mkStore {
  _service : Service;
  _is_loaded : bool;
  service_state : S
}.

Definition set_is_loaded (b : bool) (st : Store) : Store :=
  mkStore (_service st) b (service_state st).

Definition set_service_state (s : S) (st : Store) : Store :=
  mkStore (_service st) (_is_loaded st) s.

(** The service's code runs on its own state and cannot reach the
    wrapper's attributes. *)
Definition in_service {A} (c : M S A) : M Store A :=
  fun st =>
    let (o, s') := c (service_state st) in
    (o, set_service_state s' st).

(** The wrapper's own [async def]s: calling one yields the coroutine
    (a suspended [M Store A]); [await] runs it, while a call used as
    an expression statement leaves it unstarted and drops it. *)
Definition Coro (A : Type) : Type := M Store A.

Definition await {A} (c : Coro A) : M Store A := c.

Definition not_awaited {A} (c : Coro A) : M Store unit := ret tt.

Definition __init__ (service : Service) (s : S) : Store :=
  mkStore service false s.

Definition _call_maybe_coroutine (func : Callable) (args : list Value)
    : Coro Value :=
  res <~ in_service (func args) ;;
  match res with
  | Coroutine body => await (in_service body)
  | Plain v => ret v
  end.

Definition _try_call_maybe_coroutine (inst : Service)
    (func_name : string) (args : list Value) : Coro Value :=
  match inst !! func_name with
  | None => ret (VBool false)
  | Some val =>
      await (_call_maybe_coroutine val args) ;;;
      ret VNone
  end.

Definition has_load (self : Store) : bool :=
  negb (is_None (_service self !! "load")).

Definition load (ctx : Value) : Coro Value :=
  self <~ get ;;
  not_awaited (_try_call_maybe_coroutine (_service self) "load" [ctx]) ;;;
  modify (set_is_loaded true) ;;;
  ret VNone.

Definition process (ctx : Value) : Coro Value :=
  self <~ get ;;
  if negb (_is_loaded self) && has_load self
  then raise (ValueError "Be sure to call load before process!")
  else
    match _service self !! "process" with
    | None => raise (AttributeError "process")
    | Some func =>
        not_awaited (_call_maybe_coroutine func [ctx]) ;;;
        ret VNone
    end.

Definition dispose : M Store Value :=
  self <~ get ;;
  not_awaited (_try_call_maybe_coroutine (_service self) "dispose" []) ;;;
  ret VNone.

(** The host's calls on a wrapper, each awaited where the method is
    an [async def]. *)
Inductive Call : Type :=
| CallLoad (ctx : Value)
| CallProcess (ctx : Value)
| CallDispose.

Definition perform (c : Call) : M Store Value :=
  match c with
  | CallLoad ctx => await (load ctx)
  | CallProcess ctx => await (process ctx)
  | CallDispose => dispose
  end.

(** A host that goes on after a failed call: the store after a
    series of calls. *)
Fixpoint after (calls : list Call) (st : Store) : Store :=
  match calls with
  | [] => st
  | c :: calls' => after calls' (snd (perform c st))
  end.

Definition is_invalid_state_error {A} (o : Outcome A) : bool :=
  match o with
  | Raise (ValueError _) => true
  | _ => false
  end.

Definition is_load (c : Call) : bool :=
  match c with
  | CallLoad _ => true
  | _ => false
  end.
End Wrapper.

Arguments Plain {S} v.
Arguments Coroutine {S} body.
Arguments mkStore {S} _ _ _.
Arguments _service {S} _.
Arguments _is_loaded {S} _.
Arguments service_state {S} _.
Arguments def {S} body.
Arguments async_def {S} body.
Arguments __init__ {S} service s.
Arguments await {S A} c.
Arguments in_service {S A} c.
Arguments _call_maybe_coroutine {S} func args.
Arguments _try_call_maybe_coroutine {S} inst func_name args.
Arguments has_load {S} self.
Arguments load {S} ctx.
Arguments process {S} ctx.
Arguments dispose {S}.
Arguments perform {S} c.
Arguments after {S} calls st.

End SafeServiceWrapper.

(** *** class ServerInstance *)

Module ServerInstance.

(** The context sources [build_load_context_source] instantiates. *)
Inductive ServiceContextSource : Type :=
| DictServiceContextSource (d : gmap string string)
| EnvironmentVariableServiceContextSource (prefix : string)
| ServiceConfigurationServiceContextSource
    (src : _ServiceConfigurationServiceContextSource.t).

Record CoalescingServiceContextSource : Type :=
  mkCoalescing { __sources : list ServiceContextSource }.

(** Of the attributes of a [ServerInstance] only the configuration
    matters to the builder. *)
Record t : Type := mk { __config : ServiceConfiguration }.

Definition build_load_context_source (self : t)
    (include_environment_variables : bool)
    (override : option (gmap string string))
    : CoalescingServiceContextSource :=
  let context_parts : list ServiceContextSource := [] in
  let context_parts :=
    match override with
    | Some d => (context_parts ++ [DictServiceContextSource d])%list
    | None => context_parts
    end in
  let context_parts :=
    if include_environment_variables
    then (context_parts
            ++ [EnvironmentVariableServiceContextSource "SERVICE_"])%list
    else context_parts in
  let context_parts :=
    if has_parameters (__config self)
    then (context_parts
            ++ [ServiceConfigurationServiceContextSource
                  (_ServiceConfigurationServiceContextSource.__init__
                     (__config self))])%list
    else context_parts in
  mkCoalescing context_parts.

Section Resolution.
Variable is_valid : string -> bool.
(** The process environment. *)
Variable environ : gmap string string.

(** Modelled from the spec: the dict and environment-variable sources
    of context_sources.py are not among the sources.  A dict source
    reads its map directly; an environment-variable source looks up
    [prefix + name] in the process environment.  The configuration
    source is the one of server.py, asked for an optional value. *)
Definition member_value (src : ServiceContextSource) (name : string)
    : M (list Query) (option string) :=
  match src with
  | DictServiceContextSource d => ret (d !! name)
  | EnvironmentVariableServiceContextSource prefix =>
      ret (environ !! (prefix ++ name))
  | ServiceConfigurationServiceContextSource src =>
      _ServiceConfigurationServiceContextSource.get_parameter_value
        is_valid src name false None
  end.

(** Modelled from the spec: the members are queried strictly in
    order and the first non-null result is taken. *)
Fixpoint first_non_null (sources : list ServiceContextSource)
    (name : string) : M (list Query) (option string) :=
  match sources with
  | [] => ret None
  | src :: rest =>
      v <~ member_value src name ;;
      if is_None v then first_non_null rest name else ret v
  end.

(** Modelled from the spec: [get_parameter_value] of the coalescing
    source of context_sources.py, which is not among the sources.
    It validates the name once, then queries the members; if all
    return null it uses [default]; if the value is still null and
    [required] is true it fails with [MissingParameterError(name)]. *)
Definition coalescing_get_parameter_value
    (self : CoalescingServiceContextSource) (name : string)
    (required : bool) (default : option string)
    : M (list Query) (option string) :=
  raise_if_invalid is_valid name ;;;
  v <~ first_non_null (__sources self) name ;;
  let val := if is_None v then default else v in
  if required && is_None val
  then raise (MissingParameterError name)
  else ret val.
End Resolution.

End ServerInstance.

End server.

(** ** Vocabulary of the statements about errors.py *)

Module taxonomy.
Import errors.

(** Instantiation of any class of the taxonomy from its identity
    arguments; the three classes without a field ignore [field_name]. *)
Definition construct (c : Class) (name field_name : string)
    (message : option string) : option Instance :=
  match c with
  | cls_BadRequestError => BadRequestError name message
  | cls_BadParameterError => BadParameterError name message
  | cls_BadDatasetError => BadDatasetError name message
  | cls_DatasetFieldError => DatasetFieldError name field_name message
  | cls_MissingDatasetFieldError =>
      MissingDatasetFieldError name field_name message
  end.

(** The default message the documentation gives for each class. *)
Definition default_message (c : Class) (name field_name : string) : string :=
  match c with
  | cls_BadRequestError => "The request was not valid"
  | cls_BadParameterError =>
      "The request parameter " ++ name ++ " was not valid"
  | cls_BadDatasetError => "The input dataset " ++ name ++ " was not valid"
  | cls_DatasetFieldError =>
      "The field " ++ field_name ++ " was not valid for input dataset " ++ name
  | cls_MissingDatasetFieldError =>
      "The field " ++ field_name ++ " on input dataset " ++ name
        ++ " is required but could not be found!"
  end.

End taxonomy.

(** ** A service to run the wrapper on

    Its state is the list of the method bodies that have run, in order:
    [load] is an [async def], [process] and [dispose] are plain [def]s, and
    [process] returns a string. *)

Module samples.
Import Py server.SafeServiceWrapper.

Definition journalled (method : string) (result : Value)
    : list Value -> M (list string) Value :=
  fun _ ran => (Return result, (ran ++ [method])%list).

Definition recording_service : Service (list string) :=
  {[ "load" := async_def (journalled "load" VNone);
     "process" := def (journalled "process" (VStr "prediction"));
     "dispose" := def (journalled "dispose" VNone) ]}.

(** A service without [load] whose [dispose] fails. *)
Definition failing_dispose_service : Service (list string) :=
  {[ "process" := def (journalled "process" (VStr "prediction"));
     "dispose" := def (fun _ => raise (ServiceFailure "cannot release")) ]}.

Definition ctx : Value := VObject 1.

(** A server whose configuration declares the parameter [foo = "bar"]. *)
Definition foo_bar : server.Parameters :=
  server.mkParameters
    (fun name => if String.eqb name "foo" then Some "bar" else None)
    (fun _ => None).

Definition instance : server.ServerInstance.t :=
  server.ServerInstance.mk (server.mkServiceConfiguration true foo_bar).

End samples.

(** ** server.py, class ServerInstance: construction and life cycle

    The whole object this time.  What it gets from other modules is taken
    as given: the configuration object read from a path, the loader
    resolved from the configuration's service identifier, and the context
    objects handed to the service. *)

Module orchestrator.
Import Py server server.SafeServiceWrapper.
Local Open Scope py_scope.

Section Instance.
(** The state of the hosted service, and the types of the objects that
    only pass through. *)
Variables S Schema Info HostConfig ContextSource : Type.

(** What [configuration.ServiceConfiguration(config_path)] offers:
    [service()], [host()] (whose result answers [get_host_config]),
    [schema()], [info()], and the parameter part used by the builder. *)
Record Configuration : Type := mkConfiguration {
  service : string;
  host : option (string -> option HostConfig);
  schema : Schema;
  info : Info;
  core : ServiceConfiguration
}.

(** A service loader: [get_name()], the methods and initial state of the
    object [get_instance()] returns, and how that object prints. *)
Record ServiceLoader : Type := mkServiceLoader {
  get_name : string;
  get_instance : Service S * S;
  instance_str : string
}.

(** The attributes of a [ServerInstance]; [__service] holds the wrapper
    together with the service it wraps.  [stdout] is not an attribute: it
    is what the methods have printed. *)
Record t : Type := mk {
  __host_type : string;
  __config : Configuration;
  __service_instance_loader : ServiceLoader;
  __host_configs : option (string -> option HostConfig);
  __schema : Schema;
  __info : Info;
  __service : option (Store S);
  __logger : string;
  stdout : list string
}.

Definition set_service (w : option (Store S)) (self : t) : t :=
  mk (__host_type self) (__config self) (__service_instance_loader self)
     (__host_configs self) (__schema self) (__info self) w
     (__logger self) (stdout self).

Definition print (line : string) : M t unit :=
  modify (fun self =>
    mk (__host_type self) (__config self) (__service_instance_loader self)
       (__host_configs self) (__schema self) (__info self) (__service self)
       (__logger self) (stdout self ++ [line])%list).

(** The process environment and the two constructors of other modules. *)
Variable environ : gmap string string.
Variable open_configuration : string -> Configuration.
Variable get_service_loader : string -> ServiceLoader.
(** [contexts.ServiceContext(ctx_source, logger)],
    [contexts.ProcessContext(ctx_source)], and a coalescing source seen as
    a context source. *)
Variable ServiceContext : ContextSource -> string -> Value.
Variable ProcessContext : ContextSource -> Value.
Variable of_coalescing :
  ServerInstance.CoalescingServiceContextSource -> ContextSource.

Definition __init__ (host_type : string) (config_path : option string)
    (printed : list string) : t :=
  let config_path :=
    if negb (truthy config_path)
    then Some (default "./service/config.json"
                 (environ !! "SERVICE_CONFIG_PATH"))
    else config_path in
  let config := open_configuration (default "" config_path) in
  let loader := get_service_loader (service config) in
  mk host_type config loader (host config) (schema config) (info config)
     None (get_name loader) printed.

Definition get_info (self : t) : Info := __info self.

Definition get_host_config_section (self : t) : option HostConfig :=
  match __host_configs self with
  | None => None
  | Some host_configs => host_configs (__host_type self)
  end.

Definition get_parameter_real_path_value (self : t) (name : string)
    : M (list Query) (option Path) :=
  read_real_path_value (parameters (core (__config self))) name.

Definition __get_service_instance : M t (Store S) :=
  self <~ get ;;
  let service := get_instance (__service_instance_loader self) in
  print ("Got service: " ++ instance_str (__service_instance_loader self)) ;;;
  ret (SafeServiceWrapper.__init__ (fst service) (snd service)).

Definition is_loaded (self : t) : bool := negb (is_None (__service self)).

Definition build_load_context_source (self : t)
    (include_environment_variables : bool)
    (override : option (gmap string string))
    : ServerInstance.CoalescingServiceContextSource :=
  ServerInstance.build_load_context_source
    (ServerInstance.mk (core (__config self)))
    include_environment_variables override.

Definition _get_load_logger (self : t) : string := __logger self ++ ".load".

(** A method of a wrapper that is still a local variable: its outcome and
    the wrapper after it. *)
Definition on_local {A} (w : Store S) (c : M (Store S) A)
    : M t (A * Store S) :=
  fun self =>
    match c w with
    | (Return a, w') => (Return (a, w'), self)
    | (Raise e, _) => (Raise e, self)
    end.

(** A method of [self.__service]: looking [attr] up on [None] is an
    [AttributeError]; otherwise the method runs on the stored wrapper. *)
Definition on_service {A} (attr : string) (c : M (Store S) A) : M t A :=
  fun self =>
    match __service self with
    | None => (Raise (AttributeError attr), self)
    | Some w => let (o, w') := c w in (o, set_service (Some w') self)
    end.

(** [async def load]: the value is what awaiting it does. *)
Definition load (ctx_source : option ContextSource) : M t Value :=
  service <~ __get_service_instance ;;
  service <~
    (if has_load service
     then
       self <~ get ;;
       let ctx_source :=
         match ctx_source with
         | None => of_coalescing (build_load_context_source self true None)
         | Some given => given
         end in
       let ctx := ServiceContext ctx_source (_get_load_logger self) in
       print "service.load" ;;;
       r <~ on_local service (await (SafeServiceWrapper.load ctx)) ;;
       ret (snd r)
     else ret service) ;;
  modify (set_service (Some service)) ;;;
  ret VNone.

(** [async def process]: the value is what awaiting it does. *)
Definition process (ctx_source : ContextSource) : M t Value :=
  let ctx := ProcessContext ctx_source in
  on_service "process" (await (SafeServiceWrapper.process ctx)) ;;;
  ret VNone.

Definition dispose : M t Value :=
  self <~ get ;;
  if is_None (__service self)
  then ret VNone
  else on_service "dispose" SafeServiceWrapper.dispose ;;; ret VNone.

(** The host's calls on a server instance. *)
Inductive Call : Type :=
| CallLoad (ctx_source : option ContextSource)
| CallProcess (ctx_source : ContextSource)
| CallDispose.

Definition perform (c : Call) : M t Value :=
  match c with
  | CallLoad ctx_source => load ctx_source
  | CallProcess ctx_source => process ctx_source
  | CallDispose => dispose
  end.

Fixpoint after (calls : list Call) (self : t) : t :=
  match calls with
  | [] => self
  | c :: calls' => after calls' (snd (perform c self))
  end.

Definition is_load (c : Call) : bool :=
  match c with
  | CallLoad _ => true
  | _ => false
  end.

(** Whatever wrapper is stored passes its own state guard: a service with
    [load] has had the wrapper's [load] awaited. *)
Definition guard_open (self : t) : bool :=
  match __service self with
  | None => true
  | Some w => implb (has_load w) (_is_loaded w)
  end.

End Instance.

Arguments guard_open {S Schema Info HostConfig} self.
Arguments mkConfiguration {Schema Info HostConfig} _ _ _ _ _.
Arguments service {Schema Info HostConfig} _.
Arguments core {Schema Info HostConfig} _.
Arguments mkServiceLoader {S} _ _ _.
Arguments get_name {S} _.
Arguments get_instance {S} _.
Arguments instance_str {S} _.
Arguments mk {S Schema Info HostConfig} _ _ _ _ _ _ _ _ _.
Arguments __host_type {S Schema Info HostConfig} _.
Arguments __config {S Schema Info HostConfig} _.
Arguments __service_instance_loader {S Schema Info HostConfig} _.
Arguments __host_configs {S Schema Info HostConfig} _.
Arguments __service {S Schema Info HostConfig} _.
Arguments __logger {S Schema Info HostConfig} _.
Arguments stdout {S Schema Info HostConfig} _.
Arguments __init__ {S Schema Info HostConfig} environ open_configuration
  get_service_loader host_type config_path printed.
Arguments get_host_config_section {S Schema Info HostConfig} self.
Arguments get_parameter_real_path_value {S Schema Info HostConfig} self name.
Arguments is_loaded {S Schema Info HostConfig} self.
Arguments build_load_context_source {S Schema Info HostConfig} self _ _.
Arguments load {S Schema Info HostConfig ContextSource} ServiceContext
  of_coalescing ctx_source.
Arguments process {S Schema Info HostConfig ContextSource} ProcessContext
  ctx_source.
Arguments dispose {S Schema Info HostConfig}.
Arguments CallLoad {ContextSource} ctx_source.
Arguments CallProcess {ContextSource} ctx_source.
Arguments CallDispose {ContextSource}.
Arguments perform {S Schema Info HostConfig ContextSource} ServiceContext
  ProcessContext of_coalescing c.
Arguments after {S Schema Info HostConfig ContextSource} ServiceContext
  ProcessContext of_coalescing calls self.
Arguments is_load {ContextSource} c.

End orchestrator.

(** ** A server instance to run the life cycle on *)

Module samples_server.
Import server.SafeServiceWrapper.

Definition loader : orchestrator.ServiceLoader (list string) :=
  orchestrator.mkServiceLoader "recorder" (samples.recording_service, [])
    "<Recorder>".

(** The configuration found at every path but the empty one: no host
    section, the parameter [foo = "bar"]. *)
Definition open_configuration (path : string)
    : orchestrator.Configuration unit unit unit :=
  orchestrator.mkConfiguration
    (if String.eqb path "" then "" else "recorder") None tt tt
    (server.mkServiceConfiguration true samples.foo_bar).

Definition get_service_loader (service : string)
    : orchestrator.ServiceLoader (list string) := loader.

Definition ProcessContext (ctx_source : nat) : Value := VObject ctx_source.

(** A new instance, built with an empty environment and no path. *)
Definition fresh : orchestrator.t (list string) unit unit unit :=
  orchestrator.__init__ ∅ open_configuration get_service_loader "cli" None [].

End samples_server.

(** * Properties *)

(** ** The error taxonomy *)

Example format_two_fields :
  Py.format "The field {} on {}" ["id"; "orders"]
  = Some "The field id on orders".
Proof. reflexivity. Qed.

Example format_missing_argument : Py.format "{} and {}" ["one"] = None.
Proof. reflexivity. Qed.

Example field_error_attributes :
  (self ← errors.DatasetFieldError "orders" "id" None;
   Some (errors.getattr self "name", errors.getattr self "field_name"))
  = Some (Some "orders", Some "id").
Proof. vm_compute. reflexivity. Qed.

Section ErrorFacts.
Import errors taxonomy.

Lemma append_empty_r (s : string) : s ++ "" = s.
Proof.
  induction s as [|c s IH]; [reflexivity|].
  change (String c (s ++ "") = String c s). now rewrite IH.
Qed.

Lemma format_default (c : Class) (name field_name : string) :
  match c with
  | cls_BadRequestError => True
  | cls_BadParameterError =>
      Py.format "The request parameter {} was not valid" [name]
      = Some (default_message c name field_name)
  | cls_BadDatasetError =>
      Py.format "The input dataset {} was not valid" [name]
      = Some (default_message c name field_name)
  | cls_DatasetFieldError =>
      Py.format "The field {} was not valid for input dataset {}"
        [field_name; name]
      = Some (default_message c name field_name)
  | cls_MissingDatasetFieldError =>
      Py.format
        "The field {} on input dataset {} is required but could not be found!"
        [field_name; name]
      = Some (default_message c name field_name)
  end.
Proof.
  destruct c; try exact I; try reflexivity.
  cbv [default_message]. rewrite <- (append_empty_r name) at 2. reflexivity.
Qed.

Lemma truthy_nonempty (m : string) : m <> "" -> Py.truthy (Some m) = true.
Proof.
  intros Hm. unfold Py.truthy.
  destruct (String.eqb_spec m ""); [contradiction | reflexivity].
Qed.

Lemma message_or_given (m template : string) (args : list string) :
  m <> "" -> message_or (Some m) template args = Some m.
Proof. intros Hm. unfold message_or. now rewrite truthy_nonempty. Qed.

Lemma message_or_falsy (message : option string) template args :
  Py.truthy message = false ->
  message_or message template args = Py.format template args.
Proof. intros Hf. unfold message_or. now rewrite Hf. Qed.

Lemma BadRequestError__init__given self name (m : string) :
  m <> "" ->
  BadRequestError__init__ self name (Some m)
  = Some (setattr (setattr self "name" name) "message" m).
Proof.
  intros Hm. unfold BadRequestError__init__, Py.or_.
  now rewrite truthy_nonempty.
Qed.

Lemma default_message_nonempty c name field_name :
  default_message c name field_name <> "".
Proof. destruct c; discriminate. Qed.

(** A truthy message reaches the instance unchanged, through every level
    of [super().__init__]. *)
Lemma construct_given c name field_name (m : string) :
  m <> "" ->
  exists self,
    construct c name field_name (Some m) = Some self
    /\ getattr self "message" = Some m.
Proof.
  intros Hm.
  destruct c; unfold construct, BadRequestError, BadParameterError,
    BadDatasetError, DatasetFieldError, MissingDatasetFieldError,
    MissingDatasetFieldError__init__, DatasetFieldError__init__,
    BadDatasetError__init__, BadParameterError__init__;
    repeat (rewrite message_or_given by assumption; cbn [mbind option_bind]);
    rewrite BadRequestError__init__given by assumption;
    cbn [mbind option_bind];
    (eexists; split; [reflexivity|]);
    unfold getattr, setattr; cbn [attrs]; by simplify_map_eq.
Qed.

(** A falsy message ([None] or the empty string) is replaced by the
    default before it reaches the instance. *)
Lemma construct_falsy c name field_name (message : option string) :
  Py.truthy message = false ->
  construct c name field_name message
  = construct c name field_name (Some (default_message c name field_name)).
Proof.
  intros Hf.
  pose proof (format_default c name field_name) as Hfmt.
  pose proof (default_message_nonempty c name field_name) as Hne.
  destruct c; unfold construct, BadRequestError, BadParameterError,
    BadDatasetError, DatasetFieldError, MissingDatasetFieldError,
    MissingDatasetFieldError__init__, DatasetFieldError__init__,
    BadDatasetError__init__, BadParameterError__init__;
    [ unfold BadRequestError__init__, Py.or_;
      now rewrite Hf, truthy_nonempty
    | rewrite (message_or_falsy message) by assumption;
      rewrite Hfmt, message_or_given by assumption; reflexivity .. ].
Qed.
End ErrorFacts.

(** C8. Constructing any error of the taxonomy without a message stores,
    during construction, the documented default message of its class in the
    [message] attribute; [BadDatasetError("customers")] and
    [MissingDatasetFieldError("orders", "id")] get the two messages the
    documentation quotes. *)
Theorem default_message_at_construction :
  (forall c name field_name,
     errors.message_of (taxonomy.construct c name field_name None)
     = Some (taxonomy.default_message c name field_name))
  /\ errors.message_of (errors.BadDatasetError "customers" None)
     = Some "The input dataset customers was not valid"
  /\ errors.message_of (errors.MissingDatasetFieldError "orders" "id" None)
     = Some "The field id on input dataset orders is required but could not be found!".
Proof.
  assert (Hall : forall c name field_name,
     errors.message_of (taxonomy.construct c name field_name None)
     = Some (taxonomy.default_message c name field_name)).
  { intros c name field_name.
    rewrite (construct_falsy c name field_name None) by reflexivity.
    destruct (construct_given c name field_name
                (taxonomy.default_message c name field_name)
                (default_message_nonempty c name field_name))
      as (self & -> & Hmsg).
    exact Hmsg. }
  split; [exact Hall|]. split.
  - exact (Hall errors.cls_BadDatasetError "customers" "").
  - exact (Hall errors.cls_MissingDatasetFieldError "orders" "id").
Qed.

(** C9, as stated, fails for the empty string: it is a supplied, non-null
    message, yet the constructed error does not carry it. *)
Lemma empty_message_not_verbatim :
  errors.message_of (errors.BadRequestError "request" (Some "")) <> Some "".
Proof. vm_compute. discriminate. Qed.

(** C9, amended. For every class of the taxonomy and every supplied
    non-empty message, construction succeeds and the error's message is the
    supplied string verbatim; construction also succeeds without a message
    and with the empty one, and then the message is the default derived from
    the identity arguments. *)
Theorem nonempty_message_verbatim c name field_name (m : string) :
  m <> "" ->
  (exists self,
     taxonomy.construct c name field_name (Some m) = Some self
     /\ errors.getattr self "message" = Some m)
  /\ (forall falsy, Py.truthy falsy = false ->
        exists self,
          taxonomy.construct c name field_name falsy = Some self
          /\ errors.getattr self "message"
             = Some (taxonomy.default_message c name field_name)).
Proof.
  intros Hm. split.
  - now apply construct_given.
  - intros falsy Hf. rewrite (construct_falsy c name field_name falsy Hf).
    apply construct_given, default_message_nonempty.
Qed.

Lemma nonempty_message_verbatim_witness :
  exists self,
    errors.DatasetFieldError "orders" "id" (Some "id must be an integer")
    = Some self
    /\ errors.getattr self "message" = Some "id must be an integer".
Proof.
  exact (proj1 (nonempty_message_verbatim errors.cls_DatasetFieldError
                  "orders" "id" "id must be an integer"
                  ltac:(discriminate))).
Defined.

(** ** The configuration context source *)

Section ConfigurationFacts.
Import Py server server._ServiceConfigurationServiceContextSource.

Variable is_valid : string -> bool.

(** What [get_parameter_value] does once the name has passed validation:
    one read of the store, then the default and the required check. *)
Lemma get_parameter_value_valid (self : t) name required default journal :
  is_valid name = true ->
  get_parameter_value is_valid self name required default journal
  = (let val := or_ (get_value (__parameters self) name) default in
     if required && is_None val
     then Raise (MissingParameterError name)
     else Return val,
     (journal ++ [QValue name])%list).
Proof.
  intros Hv. unfold get_parameter_value, raise_if_invalid, bind, read_value.
  rewrite Hv. cbn.
  destruct (required && is_None _); reflexivity.
Qed.

Lemma get_parameter_value_invalid (self : t) name required default journal :
  is_valid name = false ->
  get_parameter_value is_valid self name required default journal
  = (Raise (NamingViolation name), journal).
Proof.
  intros Hv. unfold get_parameter_value, raise_if_invalid, bind.
  now rewrite Hv.
Qed.

Lemma get_parameter_real_path_value_invalid (self : t) name required journal :
  is_valid name = false ->
  get_parameter_real_path_value is_valid self name required journal
  = (Raise (NamingViolation name), journal).
Proof.
  intros Hv. unfold get_parameter_real_path_value, raise_if_invalid, bind.
  now rewrite Hv.
Qed.

End ConfigurationFacts.

Local Ltac solve_outcome :=
  split; [reflexivity|];
  split; [split|];
  [ first [ intros [e He]; discriminate He | intros _; auto ]
  | first [ intros (Hr & Ht' & Hd); congruence | intros _; eauto ]
  | first [ intros e He; discriminate He | intros e [= <-]; reflexivity ] ].

(** C6, as stated, fails when the configuration holds the empty string: the
    value is non-null, yet the caller's default is returned in its place,
    and with [required] and no default the lookup raises although the
    configuration value is not null. *)
Lemma empty_configuration_value_not_returned :
  let params := server.mkParameters
                  (fun name => if String.eqb name "Foo" then Some "" else None)
                  (fun _ => None) in
  let self := server._ServiceConfigurationServiceContextSource.mk params in
  server.get_value params "Foo" = Some ""
  /\ fst (server._ServiceConfigurationServiceContextSource.get_parameter_value
            (fun _ => true) self "Foo" false (Some "fallback") [])
     <> Py.Return (Some "")
  /\ fst (server._ServiceConfigurationServiceContextSource.get_parameter_value
            (fun _ => true) self "Foo" true None [])
     = Py.Raise (Py.MissingParameterError "Foo").
Proof. vm_compute. repeat split. discriminate. Qed.

(** C6, amended. For every valid name, [get_parameter_value] returns the
    configuration's value when it is truthy (neither null nor the empty
    string) and otherwise the caller's default; it raises
    [MissingParameterError] carrying exactly that name if and only if
    [required] is true, the configuration value is falsy and the default is
    null. *)
Theorem get_parameter_value_truthy_or_default
    (is_valid : string -> bool)
    (self : server._ServiceConfigurationServiceContextSource.t)
    (name : string) (required : bool) (default : option string)
    (journal : list server.Query) :
  is_valid name = true ->
  let v := server.get_value
             (server._ServiceConfigurationServiceContextSource.__parameters self)
             name in
  let outcome :=
    fst (server._ServiceConfigurationServiceContextSource.get_parameter_value
           is_valid self name required default journal) in
  outcome
  = (if Py.truthy v then Py.Return v
     else if required && Py.is_None default
          then Py.Raise (Py.MissingParameterError name)
          else Py.Return default)
  /\ ((exists e, outcome = Py.Raise e)
      <-> required = true /\ Py.truthy v = false /\ default = None)
  /\ (forall e, outcome = Py.Raise e -> e = Py.MissingParameterError name).
Proof.
  intros Hv v outcome. subst outcome.
  rewrite get_parameter_value_valid by assumption. cbn [fst]. fold v.
  unfold Py.or_.
  destruct (Py.truthy v) eqn:Ht.
  - assert (Hsome : Py.is_None v = false)
      by (destruct v; [reflexivity | discriminate]).
    rewrite Hsome, andb_false_r. solve_outcome.
  - destruct required, default as [d|]; cbn; solve_outcome.
Qed.

Lemma get_parameter_value_truthy_or_default_witness :
  fst (server._ServiceConfigurationServiceContextSource.get_parameter_value
         (fun name => negb (String.eqb name ""))
         (server._ServiceConfigurationServiceContextSource.mk
            (server.mkParameters
               (fun name => if String.eqb name "Foo" then Some "bar" else None)
               (fun _ => None)))
         "Foo" true None [])
  = Py.Return (Some "bar").
Proof.
  exact (proj1 (get_parameter_value_truthy_or_default
                  (fun name => negb (String.eqb name ""))
                  (server._ServiceConfigurationServiceContextSource.mk
                     (server.mkParameters
                        (fun name =>
                           if String.eqb name "Foo" then Some "bar" else None)
                        (fun _ => None)))
                  "Foo" true None [] eq_refl)).
Defined.

(** C7. For every name that fails validation, both [get_parameter_value] and
    [get_parameter_real_path_value] raise the naming-violation error and
    leave the journal of reads of the parameter store as it was: the
    validator runs first and the parameters are never queried, so no value
    and no null comes back. *)
Theorem invalid_name_never_queries_parameters
    (is_valid : string -> bool)
    (self : server._ServiceConfigurationServiceContextSource.t)
    (name : string) (required : bool) (default : option string)
    (journal : list server.Query) :
  is_valid name = false ->
  server._ServiceConfigurationServiceContextSource.get_parameter_value
    is_valid self name required default journal
  = (Py.Raise (Py.NamingViolation name), journal)
  /\ server._ServiceConfigurationServiceContextSource.get_parameter_real_path_value
       is_valid self name required journal
     = (Py.Raise (Py.NamingViolation name), journal).
Proof.
  intros Hv. split.
  - now apply get_parameter_value_invalid.
  - now apply get_parameter_real_path_value_invalid.
Qed.

Lemma invalid_name_never_queries_parameters_witness :
  server._ServiceConfigurationServiceContextSource.get_parameter_value
    (fun name => negb (String.eqb name ""))
    (server._ServiceConfigurationServiceContextSource.mk
       (server.mkParameters (fun _ => Some "leak") (fun _ => Some "/etc")))
    "" false (Some "fallback") []
  = (Py.Raise (Py.NamingViolation ""), [])
  /\ server._ServiceConfigurationServiceContextSource.get_parameter_real_path_value
       (fun name => negb (String.eqb name ""))
       (server._ServiceConfigurationServiceContextSource.mk
          (server.mkParameters (fun _ => Some "leak") (fun _ => Some "/etc")))
       "" false []
     = (Py.Raise (Py.NamingViolation ""), []).
Proof.
  exact (invalid_name_never_queries_parameters
           (fun name => negb (String.eqb name ""))
           (server._ServiceConfigurationServiceContextSource.mk
              (server.mkParameters (fun _ => Some "leak") (fun _ => Some "/etc")))
           "" false (Some "fallback") [] eq_refl).
Defined.

(** ** The lifecycle wrapper *)

Section WrapperFacts.
Import Py server.SafeServiceWrapper.
Context {S : Type}.
Implicit Types (st : Store S) (ctx : Value).

(** The three methods, run to their end. *)
Lemma load_run ctx st :
  await (load ctx) st = (Return VNone, set_is_loaded S true st).
Proof. reflexivity. Qed.

Lemma process_run ctx st :
  await (process ctx) st
  = (if negb (_is_loaded st) && has_load st
     then Raise (ValueError "Be sure to call load before process!")
     else match _service st !! "process" with
          | None => Raise (AttributeError "process")
          | Some _ => Return VNone
          end,
     st).
Proof.
  unfold await, process, bind, get.
  destruct (negb (_is_loaded st) && has_load st); [reflexivity|].
  destruct (_service st !! "process"); reflexivity.
Qed.

Lemma dispose_run st : dispose st = (Return VNone, st).
Proof. reflexivity. Qed.

Lemma perform_is_loaded (c : Call) st :
  _is_loaded (snd (perform c st)) = _is_loaded st || is_load c.
Proof.
  destruct c as [ctx|ctx|]; cbn [perform is_load].
  - rewrite load_run. cbn. now rewrite orb_true_r.
  - rewrite process_run. cbn. now rewrite orb_false_r.
  - rewrite dispose_run. cbn. now rewrite orb_false_r.
Qed.

Lemma perform_service (c : Call) st :
  _service (snd (perform c st)) = _service st
  /\ service_state (snd (perform c st)) = service_state st.
Proof.
  destruct c as [ctx|ctx|]; cbn [perform].
  - rewrite load_run. split; reflexivity.
  - rewrite process_run. split; reflexivity.
  - rewrite dispose_run. split; reflexivity.
Qed.

Lemma after_is_loaded (calls : list Call) st :
  _is_loaded (after calls st) = _is_loaded st || existsb is_load calls.
Proof.
  revert st. induction calls as [|c calls IH]; intros st; cbn [after existsb].
  - now rewrite orb_false_r.
  - rewrite IH, perform_is_loaded. now rewrite orb_assoc.
Qed.

Lemma process_guard ctx st :
  is_invalid_state_error (fst (await (process ctx) st))
  = has_load st && negb (_is_loaded st).
Proof.
  rewrite process_run. cbn [fst].
  destruct (_is_loaded st), (has_load st); cbn; try reflexivity;
    destruct (_service st !! "process"); reflexivity.
Qed.

End WrapperFacts.

(** C1, evaluated on a service whose [load] is an [async def] that records
    that it ran. Awaiting the service's own [load] runs its body; awaiting
    the wrapper's [load] marks the wrapper as loaded and returns while the
    body has not started. The same holds for every service: the wrapper's
    [load] leaves the state of the service as it found it. *)
Theorem load_returns_before_service_load_ran :
  (let st0 := server.SafeServiceWrapper.__init__ samples.recording_service [] in
   server.SafeServiceWrapper.service_state
     (snd (server.SafeServiceWrapper._try_call_maybe_coroutine
             samples.recording_service "load" [samples.ctx] st0))
   = ["load"]
   /\ server.SafeServiceWrapper.has_load st0 = true
   /\ fst (server.SafeServiceWrapper.await
             (server.SafeServiceWrapper.load samples.ctx) st0)
      = Py.Return server.SafeServiceWrapper.VNone
   /\ server.SafeServiceWrapper._is_loaded
        (snd (server.SafeServiceWrapper.await
                (server.SafeServiceWrapper.load samples.ctx) st0))
      = true
   /\ server.SafeServiceWrapper.service_state
        (snd (server.SafeServiceWrapper.await
                (server.SafeServiceWrapper.load samples.ctx) st0))
      = [])
  /\ (forall (S : Type) (st : server.SafeServiceWrapper.Store S) ctx,
        server.SafeServiceWrapper.service_state
          (snd (server.SafeServiceWrapper.await
                  (server.SafeServiceWrapper.load ctx) st))
        = server.SafeServiceWrapper.service_state st).
Proof.
  split.
  - vm_compute. repeat split.
  - intros S st ctx. now rewrite load_run.
Qed.

(** C2, evaluated on the same service once loaded. Awaiting the service's
    own [process] runs its body and yields its result; awaiting the
    wrapper's [process] yields [None] and the body has not run. The same
    holds for every service: the wrapper's [process] returns [None] or
    raises, and leaves the state of the service as it found it. *)
Theorem process_drops_service_result :
  (let st1 := server.SafeServiceWrapper.after
                [server.SafeServiceWrapper.CallLoad samples.ctx]
                (server.SafeServiceWrapper.__init__ samples.recording_service [])
   in
   match samples.recording_service !! "process" with
   | Some func =>
       let r := server.SafeServiceWrapper._call_maybe_coroutine
                  func [samples.ctx] st1 in
       fst r = Py.Return (server.SafeServiceWrapper.VStr "prediction")
       /\ server.SafeServiceWrapper.service_state (snd r) = ["process"]
   | None => False
   end
   /\ fst (server.SafeServiceWrapper.await
             (server.SafeServiceWrapper.process samples.ctx) st1)
      = Py.Return server.SafeServiceWrapper.VNone
   /\ server.SafeServiceWrapper.service_state
        (snd (server.SafeServiceWrapper.await
                (server.SafeServiceWrapper.process samples.ctx) st1))
      = [])
  /\ (forall (S : Type) (st : server.SafeServiceWrapper.Store S) ctx,
        fst (server.SafeServiceWrapper.await
               (server.SafeServiceWrapper.process ctx) st)
        = Py.Return server.SafeServiceWrapper.VNone
        \/ exists e,
             fst (server.SafeServiceWrapper.await
                    (server.SafeServiceWrapper.process ctx) st)
             = Py.Raise e)
  /\ (forall (S : Type) (st : server.SafeServiceWrapper.Store S) ctx,
        snd (server.SafeServiceWrapper.await
               (server.SafeServiceWrapper.process ctx) st)
        = st).
Proof.
  split; [|split].
  - vm_compute. repeat split.
  - intros S st ctx. rewrite process_run. cbn [fst].
    destruct (_ && _); [right; eauto|].
    destruct (_ !! _); [left; reflexivity | right; eauto].
  - intros S st ctx. now rewrite process_run.
Qed.

(** C3. The wrapper's [process] raises the invalid-state error exactly when
    the service has a [load] attribute and the wrapper is not loaded. On a
    fresh wrapper around a service without [load] it does not raise that
    error, and returns normally when the service has a [process] attribute;
    around a service with [load] it does not raise that error once the
    wrapper's [load] has been awaited. *)
Theorem process_invalid_state_iff
    (S : Type) (st : server.SafeServiceWrapper.Store S)
    (service : server.SafeServiceWrapper.Service S) (s : S)
    (ctx ctx' : server.SafeServiceWrapper.Value) :
  (fst (server.SafeServiceWrapper.await
          (server.SafeServiceWrapper.process ctx) st)
   = Py.Raise (Py.ValueError "Be sure to call load before process!")
   <-> server.SafeServiceWrapper.has_load st = true
       /\ server.SafeServiceWrapper._is_loaded st = false)
  /\ (server.SafeServiceWrapper.is_invalid_state_error
        (fst (server.SafeServiceWrapper.await
                (server.SafeServiceWrapper.process ctx) st))
      = server.SafeServiceWrapper.has_load st
        && negb (server.SafeServiceWrapper._is_loaded st))
  /\ (service !! "load" = None ->
      let fresh := server.SafeServiceWrapper.__init__ service s in
      server.SafeServiceWrapper.is_invalid_state_error
        (fst (server.SafeServiceWrapper.await
                (server.SafeServiceWrapper.process ctx) fresh))
      = false
      /\ (is_Some (service !! "process") ->
          server.SafeServiceWrapper.await
            (server.SafeServiceWrapper.process ctx) fresh
          = (Py.Return server.SafeServiceWrapper.VNone, fresh)))
  /\ (is_Some (service !! "load") ->
      let loaded := snd (server.SafeServiceWrapper.await
                           (server.SafeServiceWrapper.load ctx')
                           (server.SafeServiceWrapper.__init__ service s)) in
      server.SafeServiceWrapper.is_invalid_state_error
        (fst (server.SafeServiceWrapper.await
                (server.SafeServiceWrapper.process ctx) loaded))
      = false).
Proof.
  split; [|split; [|split]].
  - rewrite process_run. cbn [fst].
    unfold server.SafeServiceWrapper.has_load.
    destruct (server.SafeServiceWrapper._is_loaded st),
      (Py.is_None (server.SafeServiceWrapper._service st !! "load"));
      cbn; try destruct (_ !! "process");
      split; try discriminate; try tauto;
      intros [? ?]; discriminate.
  - apply process_guard.
  - intros Hnone fresh. split.
    + rewrite process_guard. unfold server.SafeServiceWrapper.has_load.
      subst fresh. cbn. now rewrite Hnone.
    + intros [func Hfunc]. rewrite process_run.
      unfold server.SafeServiceWrapper.has_load. subst fresh. cbn.
      now rewrite Hnone, Hfunc.
  - intros _ loaded. rewrite process_guard. subst loaded.
    rewrite load_run. cbn. apply andb_false_r.
Qed.

Lemma process_invalid_state_iff_witness :
  fst (server.SafeServiceWrapper.await
         (server.SafeServiceWrapper.process samples.ctx)
         (server.SafeServiceWrapper.__init__ samples.recording_service []))
  = Py.Raise (Py.ValueError "Be sure to call load before process!")
  /\ server.SafeServiceWrapper.await
       (server.SafeServiceWrapper.process samples.ctx)
       (server.SafeServiceWrapper.__init__ samples.failing_dispose_service [])
     = (Py.Return server.SafeServiceWrapper.VNone,
        server.SafeServiceWrapper.__init__ samples.failing_dispose_service [])
  /\ server.SafeServiceWrapper.is_invalid_state_error
       (fst (server.SafeServiceWrapper.await
               (server.SafeServiceWrapper.process samples.ctx)
               (snd (server.SafeServiceWrapper.await
                       (server.SafeServiceWrapper.load samples.ctx)
                       (server.SafeServiceWrapper.__init__
                          samples.recording_service [])))))
     = false.
Proof.
  split; [|split].
  - apply (proj1 (process_invalid_state_iff (list string)
                    (server.SafeServiceWrapper.__init__
                       samples.recording_service [])
                    samples.recording_service [] samples.ctx samples.ctx)).
    split; reflexivity.
  - apply (proj1 (proj2 (proj2 (process_invalid_state_iff (list string)
                    (server.SafeServiceWrapper.__init__
                       samples.failing_dispose_service [])
                    samples.failing_dispose_service [] samples.ctx
                    samples.ctx)))).
    + reflexivity.
    + eexists. reflexivity.
  - apply (proj2 (proj2 (proj2 (process_invalid_state_iff (list string)
                    (server.SafeServiceWrapper.__init__
                       samples.recording_service [])
                    samples.recording_service [] samples.ctx samples.ctx)))).
    eexists. reflexivity.
Defined.

(** C4, evaluated on the recording service. Awaiting the helper on the
    service's [dispose] runs its body; the wrapper's [dispose] returns
    [None] and the body has not run. The same holds for every service: the
    wrapper's [dispose] returns [None] and changes nothing, so no failure
    of the service's [dispose] can reach the caller, as on the service whose
    [dispose] raises. *)
Theorem dispose_never_starts_service_dispose :
  (let st0 := server.SafeServiceWrapper.__init__ samples.recording_service [] in
   server.SafeServiceWrapper.service_state
     (snd (server.SafeServiceWrapper._try_call_maybe_coroutine
             samples.recording_service "dispose" [] st0))
   = ["dispose"]
   /\ fst (server.SafeServiceWrapper.dispose st0)
      = Py.Return server.SafeServiceWrapper.VNone
   /\ server.SafeServiceWrapper.service_state
        (snd (server.SafeServiceWrapper.dispose st0))
      = [])
  /\ (let st0 := server.SafeServiceWrapper.__init__
                   samples.failing_dispose_service [] in
      fst (server.SafeServiceWrapper._try_call_maybe_coroutine
             samples.failing_dispose_service "dispose" [] st0)
      = Py.Raise (Py.ServiceFailure "cannot release")
      /\ fst (server.SafeServiceWrapper.dispose st0)
         = Py.Return server.SafeServiceWrapper.VNone)
  /\ (forall (S : Type) (st : server.SafeServiceWrapper.Store S),
        server.SafeServiceWrapper.dispose st
        = (Py.Return server.SafeServiceWrapper.VNone, st)).
Proof.
  split; [|split].
  - vm_compute. repeat split.
  - vm_compute. repeat split.
  - intros S st. apply dispose_run.
Qed.

(** C10. The loaded flag starts false; a call changes it only if it is
    [load], which sets it; so after any series of calls the flag is set
    exactly when it was set before or the series contains a [load], and
    never goes back to false. [dispose] leaves the whole store as it was:
    there is no disposed state, and [process] after [dispose] meets the
    state guard with the same outcome as before it; after [load] and
    [dispose] it passes the guard. *)
Theorem loaded_flag_monotone
    (S : Type) (service : server.SafeServiceWrapper.Service S) (s : S)
    (st : server.SafeServiceWrapper.Store S)
    (c : server.SafeServiceWrapper.Call)
    (calls : list server.SafeServiceWrapper.Call)
    (ctx ctx' : server.SafeServiceWrapper.Value) :
  server.SafeServiceWrapper._is_loaded
    (server.SafeServiceWrapper.__init__ service s) = false
  /\ server.SafeServiceWrapper._is_loaded
       (snd (server.SafeServiceWrapper.perform c st))
     = match c with
       | server.SafeServiceWrapper.CallLoad _ => true
       | _ => server.SafeServiceWrapper._is_loaded st
       end
  /\ server.SafeServiceWrapper._is_loaded
       (server.SafeServiceWrapper.after calls st)
     = server.SafeServiceWrapper._is_loaded st
       || existsb server.SafeServiceWrapper.is_load calls
  /\ snd (server.SafeServiceWrapper.perform
            server.SafeServiceWrapper.CallDispose st) = st
  /\ fst (server.SafeServiceWrapper.perform
            (server.SafeServiceWrapper.CallProcess ctx)
            (snd (server.SafeServiceWrapper.perform
                    server.SafeServiceWrapper.CallDispose st)))
     = fst (server.SafeServiceWrapper.perform
              (server.SafeServiceWrapper.CallProcess ctx) st)
  /\ server.SafeServiceWrapper.is_invalid_state_error
       (fst (server.SafeServiceWrapper.perform
               (server.SafeServiceWrapper.CallProcess ctx)
               (server.SafeServiceWrapper.after
                  [server.SafeServiceWrapper.CallLoad ctx';
                   server.SafeServiceWrapper.CallDispose] st)))
     = false.
Proof.
  repeat apply conj.
  - reflexivity.
  - rewrite perform_is_loaded. destruct c; cbn.
    + apply orb_true_r.
    + apply orb_false_r.
    + apply orb_false_r.
  - apply after_is_loaded.
  - cbn [server.SafeServiceWrapper.perform]. now rewrite dispose_run.
  - cbn [server.SafeServiceWrapper.perform]. now rewrite dispose_run.
  - cbn [server.SafeServiceWrapper.perform]. rewrite process_guard.
    rewrite after_is_loaded. cbn. rewrite orb_true_r. apply andb_false_r.
Qed.

(** ** The context source built for [load] *)

(** C5. [build_load_context_source] returns a coalescing source whose
    members are, in this order, the dict source of the override when one is
    given, the environment-variable source with prefix [SERVICE_] when
    environment variables are included, and the configuration source when
    the configuration has parameters. With the coalescing lookup taking the
    first non-null member result, a value of the override is returned
    whatever the environment and the configuration hold, and a value of the
    environment is returned whatever the configuration holds when the
    override has none. *)
Theorem build_load_context_source_order
    (is_valid : string -> bool) (environ : gmap string string)
    (self : server.ServerInstance.t)
    (include_environment_variables : bool)
    (override : option (gmap string string))
    (name v : string) (required : bool) (default : option string)
    (journal : list server.Query) :
  server.ServerInstance.__sources
    (server.ServerInstance.build_load_context_source
       self include_environment_variables override)
  = ((match override with
      | Some d => [server.ServerInstance.DictServiceContextSource d]
      | None => []
      end)
     ++ (if include_environment_variables
         then [server.ServerInstance.EnvironmentVariableServiceContextSource
                 "SERVICE_"]
         else [])
     ++ (if server.has_parameters (server.ServerInstance.__config self)
         then [server.ServerInstance.ServiceConfigurationServiceContextSource
                 (server._ServiceConfigurationServiceContextSource.__init__
                    (server.ServerInstance.__config self))]
         else []))%list
  /\ (is_valid name = true ->
      override ≫= (fun d => d !! name) = Some v ->
      fst (server.ServerInstance.coalescing_get_parameter_value
             is_valid environ
             (server.ServerInstance.build_load_context_source
                self include_environment_variables override)
             name required default journal)
      = Py.Return (Some v))
  /\ (is_valid name = true ->
      override ≫= (fun d => d !! name) = None ->
      environ !! ("SERVICE_" ++ name) = Some v ->
      fst (server.ServerInstance.coalescing_get_parameter_value
             is_valid environ
             (server.ServerInstance.build_load_context_source
                self true override)
             name required default journal)
      = Py.Return (Some v)).
Proof.
  split; [|split].
  - unfold server.ServerInstance.build_load_context_source.
    destruct override, include_environment_variables,
      (server.has_parameters _); reflexivity.
  - intros Hv Ho. destruct override as [d|]; [|discriminate]. cbn in Ho.
    unfold server.ServerInstance.coalescing_get_parameter_value,
      server.ServerInstance.build_load_context_source,
      server.raise_if_invalid, Py.bind.
    rewrite Hv.
    destruct include_environment_variables, (server.has_parameters _);
      cbn; unfold Py.bind, Py.ret; rewrite Ho; cbn;
      now rewrite andb_false_r.
  - intros Hv Ho He.
    unfold server.ServerInstance.coalescing_get_parameter_value,
      server.ServerInstance.build_load_context_source,
      server.raise_if_invalid, Py.bind.
    rewrite Hv.
    destruct override as [d|]; cbn in Ho;
      destruct (server.has_parameters _);
      cbn; unfold Py.bind, Py.ret; rewrite ?Ho; cbn; rewrite He; cbn;
      now rewrite andb_false_r.
Qed.

Lemma build_load_context_source_order_witness :
  server.ServerInstance.__sources
    (server.ServerInstance.build_load_context_source
       samples.instance true (Some {[ "foo" := "baz" ]}))
  = [server.ServerInstance.DictServiceContextSource {[ "foo" := "baz" ]};
     server.ServerInstance.EnvironmentVariableServiceContextSource "SERVICE_";
     server.ServerInstance.ServiceConfigurationServiceContextSource
       (server._ServiceConfigurationServiceContextSource.mk samples.foo_bar)]
  /\ fst (server.ServerInstance.coalescing_get_parameter_value
            (fun _ => true) {[ "SERVICE_foo" := "qux" ]}
            (server.ServerInstance.build_load_context_source
               samples.instance true (Some {[ "foo" := "baz" ]}))
            "foo" true None [])
     = Py.Return (Some "baz")
  /\ fst (server.ServerInstance.coalescing_get_parameter_value
            (fun _ => true) {[ "SERVICE_foo" := "qux" ]}
            (server.ServerInstance.build_load_context_source
               samples.instance true None)
            "foo" true None [])
     = Py.Return (Some "qux").
Proof.
  split; [|split].
  - exact (proj1 (build_load_context_source_order
                    (fun _ => true) {[ "SERVICE_foo" := "qux" ]}
                    samples.instance true (Some {[ "foo" := "baz" ]})
                    "foo" "baz" true None [])).
  - exact (proj1 (proj2 (build_load_context_source_order
                    (fun _ => true) {[ "SERVICE_foo" := "qux" ]}
                    samples.instance true (Some {[ "foo" := "baz" ]})
                    "foo" "baz" true None [])) eq_refl eq_refl).
  - exact (proj2 (proj2 (build_load_context_source_order
                    (fun _ => true) {[ "SERVICE_foo" := "qux" ]}
                    samples.instance true None
                    "foo" "qux" true None [])) eq_refl eq_refl eq_refl).
Defined.

(** ** The server instance *)

Section OrchestratorFacts.
Import Py server.
Context {S Schema Info HostConfig ContextSource : Type}.
Context (ServiceContext : ContextSource -> string -> SafeServiceWrapper.Value)
        (ProcessContext : ContextSource -> SafeServiceWrapper.Value)
        (of_coalescing :
           ServerInstance.CoalescingServiceContextSource -> ContextSource).
Implicit Types (self : orchestrator.t S Schema Info HostConfig).

(** Setting [__service] to what it already holds changes nothing. *)
Lemma set_service_same self w :
  orchestrator.__service self = Some w ->
  orchestrator.set_service S Schema Info HostConfig (Some w) self = self.
Proof. destruct self; cbn. now intros ->. Qed.

Lemma o_load_run ctx_source self :
  orchestrator.load ServiceContext of_coalescing ctx_source self
  = (Return SafeServiceWrapper.VNone,
     let loader := orchestrator.__service_instance_loader self in
     let fresh := orchestrator.get_instance loader in
     let has := negb (is_None (fst fresh !! "load")) in
     orchestrator.mk
       (orchestrator.__host_type self) (orchestrator.__config self) loader
       (orchestrator.__host_configs self)
       (orchestrator.__schema S Schema Info HostConfig self)
       (orchestrator.__info S Schema Info HostConfig self)
       (Some (SafeServiceWrapper.mkStore (fst fresh) has (snd fresh)))
       (orchestrator.__logger self)
       ((orchestrator.stdout self
           ++ [("Got service: " ++ orchestrator.instance_str loader)%string])
          ++ (if has then ["service.load"] else []))%list).
Proof.
  destruct self as [ht cfg ld hc sc inf svc lg out].
  unfold orchestrator.load, orchestrator.__get_service_instance,
    bind, get, orchestrator.print, modify, ret. cbn.
  unfold SafeServiceWrapper.has_load. cbn.
  destruct (fst (orchestrator.get_instance ld) !! "load"); cbn;
    rewrite ?app_nil_r; reflexivity.
Qed.

Lemma o_process_run ctx_source self :
  orchestrator.process ProcessContext ctx_source self
  = (match orchestrator.__service self with
     | None => Raise (AttributeError "process")
     | Some w =>
         match fst (SafeServiceWrapper.await
                      (SafeServiceWrapper.process
                         (ProcessContext ctx_source)) w) with
         | Return _ => Return SafeServiceWrapper.VNone
         | Raise e => Raise e
         end
     end, self).
Proof.
  unfold orchestrator.process, orchestrator.on_service, bind, ret.
  destruct (orchestrator.__service self) as [w|] eqn:Hw; [|reflexivity].
  rewrite process_run. cbn [fst].
  rewrite (set_service_same self w Hw).
  destruct (_ && _); [reflexivity|].
  destruct (_ !! "process"); reflexivity.
Qed.

Lemma o_dispose_run self :
  orchestrator.dispose self = (Return SafeServiceWrapper.VNone, self).
Proof.
  unfold orchestrator.dispose, orchestrator.on_service, bind, get, ret.
  destruct (orchestrator.__service self) as [w|] eqn:Hw; cbn; [|reflexivity].
  rewrite Hw. now rewrite (set_service_same self w Hw).
Qed.

Lemma perform_guard_open c self :
  orchestrator.guard_open self = true ->
  orchestrator.guard_open
    (snd (orchestrator.perform ServiceContext ProcessContext of_coalescing
            c self)) = true.
Proof.
  intros Hg. destruct c as [cs|cs|]; cbn [orchestrator.perform].
  - rewrite o_load_run. unfold orchestrator.guard_open, SafeServiceWrapper.has_load. cbn.
    now destruct (negb _).
  - now rewrite o_process_run.
  - now rewrite o_dispose_run.
Qed.

Lemma after_guard_open calls self :
  orchestrator.guard_open self = true ->
  orchestrator.guard_open
    (orchestrator.after ServiceContext ProcessContext of_coalescing
       calls self) = true.
Proof.
  revert self. induction calls as [|c calls IH]; intros self Hg; [exact Hg|].
  cbn [orchestrator.after]. now apply IH, perform_guard_open.
Qed.

Lemma perform_no_state_error c self :
  orchestrator.guard_open self = true ->
  SafeServiceWrapper.is_invalid_state_error
    (fst (orchestrator.perform ServiceContext ProcessContext of_coalescing
            c self)) = false.
Proof.
  intros Hg. destruct c as [cs|cs|]; cbn [orchestrator.perform].
  - now rewrite o_load_run.
  - rewrite o_process_run. cbn [fst]. unfold orchestrator.guard_open in Hg.
    destruct (orchestrator.__service self) as [w|]; [|reflexivity].
    pose proof (process_guard (ProcessContext cs) w) as Hp.
    destruct (fst _) as [v|e]; [reflexivity|].
    rewrite Hp.
    destruct (SafeServiceWrapper.has_load w),
      (SafeServiceWrapper._is_loaded w); try reflexivity; discriminate.
  - now rewrite o_dispose_run.
Qed.

Lemma perform_is_loaded_o c self :
  orchestrator.is_loaded
    (snd (orchestrator.perform ServiceContext ProcessContext of_coalescing
            c self))
  = orchestrator.is_loaded self || orchestrator.is_load c.
Proof.
  destruct c as [cs|cs|]; cbn [orchestrator.perform orchestrator.is_load].
  - rewrite o_load_run. cbn. now rewrite orb_true_r.
  - rewrite o_process_run. cbn. now rewrite orb_false_r.
  - rewrite o_dispose_run. cbn. now rewrite orb_false_r.
Qed.

End OrchestratorFacts.

(** X1. [ServerInstance.load] always ends normally and leaves in
    [__service] a fresh wrapper around a fresh instance from the loader,
    marked loaded exactly when that instance has a [load] attribute; what
    was stored before and the context source passed in make no difference
    to the instance it leaves. *)
Theorem server_load_installs_fresh_wrapper
    {S Schema Info HostConfig ContextSource : Type}
    (ServiceContext : ContextSource -> string -> server.SafeServiceWrapper.Value)
    (of_coalescing :
       server.ServerInstance.CoalescingServiceContextSource -> ContextSource)
    (self : orchestrator.t S Schema Info HostConfig)
    (ctx_source ctx_source' : option ContextSource)
    (previous : option (server.SafeServiceWrapper.Store S)) :
  let fresh := orchestrator.get_instance
                 (orchestrator.__service_instance_loader self) in
  let after_load :=
    orchestrator.load ServiceContext of_coalescing ctx_source self in
  fst after_load = Py.Return server.SafeServiceWrapper.VNone
  /\ orchestrator.__service (snd after_load)
     = Some (server.SafeServiceWrapper.mkStore (fst fresh)
               (negb (Py.is_None (fst fresh !! "load"))) (snd fresh))
  /\ orchestrator.load ServiceContext of_coalescing ctx_source'
       (orchestrator.set_service S Schema Info HostConfig previous self)
     = after_load.
Proof.
  cbv zeta. rewrite !o_load_run. destruct self; cbn. repeat split.
Qed.

(** X2. Through a server instance the wrapper's state guard never fires:
    from construction on, whatever series of [load], [process] and
    [dispose] calls the host makes, no call raises the invalid-state
    [ValueError]. *)
Theorem server_never_raises_state_error
    {S Schema Info HostConfig ContextSource : Type}
    (ServiceContext : ContextSource -> string -> server.SafeServiceWrapper.Value)
    (ProcessContext : ContextSource -> server.SafeServiceWrapper.Value)
    (of_coalescing :
       server.ServerInstance.CoalescingServiceContextSource -> ContextSource)
    (environ : gmap string string)
    (open_configuration :
       string -> orchestrator.Configuration Schema Info HostConfig)
    (get_service_loader : string -> orchestrator.ServiceLoader S)
    (host_type : string) (config_path : option string)
    (printed : list string)
    (calls : list (orchestrator.Call ContextSource))
    (c : orchestrator.Call ContextSource) :
  server.SafeServiceWrapper.is_invalid_state_error
    (fst (orchestrator.perform ServiceContext ProcessContext of_coalescing c
            (orchestrator.after ServiceContext ProcessContext of_coalescing
               calls
               (orchestrator.__init__ environ open_configuration
                  get_service_loader host_type config_path printed))))
  = false.
Proof.
  apply perform_no_state_error, after_guard_open. reflexivity.
Qed.

(** X3. On a server instance that holds no service, [process] raises the
    [AttributeError] of looking [process] up on [None] and changes
    nothing. *)
Theorem server_process_before_load
    {S Schema Info HostConfig ContextSource : Type}
    (ProcessContext : ContextSource -> server.SafeServiceWrapper.Value)
    (self : orchestrator.t S Schema Info HostConfig)
    (ctx_source : ContextSource) :
  orchestrator.is_loaded self = false ->
  orchestrator.process ProcessContext ctx_source self
  = (Py.Raise (Py.AttributeError "process"), self).
Proof.
  intros Hn. rewrite o_process_run. unfold orchestrator.is_loaded in Hn.
  destruct (orchestrator.__service self); [discriminate | reflexivity].
Qed.

(** X4. [is_loaded()] is false on a new server instance, and after any
    series of calls it is true exactly when it was true before or the
    series contains a [load]: [dispose] does not reset it. *)
Theorem server_is_loaded_monotone
    {S Schema Info HostConfig ContextSource : Type}
    (ServiceContext : ContextSource -> string -> server.SafeServiceWrapper.Value)
    (ProcessContext : ContextSource -> server.SafeServiceWrapper.Value)
    (of_coalescing :
       server.ServerInstance.CoalescingServiceContextSource -> ContextSource)
    (environ : gmap string string)
    (open_configuration :
       string -> orchestrator.Configuration Schema Info HostConfig)
    (get_service_loader : string -> orchestrator.ServiceLoader S)
    (host_type : string) (config_path : option string)
    (printed : list string)
    (self : orchestrator.t S Schema Info HostConfig)
    (calls : list (orchestrator.Call ContextSource)) :
  orchestrator.is_loaded
    (orchestrator.__init__ environ open_configuration get_service_loader
       host_type config_path printed) = false
  /\ orchestrator.is_loaded
       (orchestrator.after ServiceContext ProcessContext of_coalescing
          calls self)
     = orchestrator.is_loaded self || existsb orchestrator.is_load calls.
Proof.
  split; [reflexivity|].
  revert self. induction calls as [|c calls IH]; intros self;
    cbn [orchestrator.after existsb].
  - now rewrite orb_false_r.
  - rewrite IH, perform_is_loaded_o. now rewrite orb_assoc.
Qed.

(** X5. [ServerInstance.dispose] returns [None] and leaves the instance as
    it was, whether or not a service is held; on an instance that never
    loaded one it is a no-op. *)
Theorem server_dispose_changes_nothing
    {S Schema Info HostConfig : Type}
    (self : orchestrator.t S Schema Info HostConfig) :
  orchestrator.dispose self = (Py.Return server.SafeServiceWrapper.VNone, self).
Proof. apply o_dispose_run. Qed.

(** X6. [process] right after [load] on a server instance returns [None]
    when the loaded service has a [process] attribute and raises the
    [AttributeError] for [process] when it has none, with or without a
    [load] attribute. *)
Theorem server_process_after_load
    {S Schema Info HostConfig ContextSource : Type}
    (ServiceContext : ContextSource -> string -> server.SafeServiceWrapper.Value)
    (ProcessContext : ContextSource -> server.SafeServiceWrapper.Value)
    (of_coalescing :
       server.ServerInstance.CoalescingServiceContextSource -> ContextSource)
    (self : orchestrator.t S Schema Info HostConfig)
    (load_source : option ContextSource) (ctx_source : ContextSource) :
  fst (orchestrator.process ProcessContext ctx_source
         (snd (orchestrator.load ServiceContext of_coalescing
                 load_source self)))
  = match fst (orchestrator.get_instance
                 (orchestrator.__service_instance_loader self))
          !! "process" with
    | Some _ => Py.Return server.SafeServiceWrapper.VNone
    | None => Py.Raise (Py.AttributeError "process")
    end.
Proof.
  rewrite o_process_run, o_load_run. cbn [fst snd orchestrator.__service].
  rewrite process_run. cbn [fst].
  unfold server.SafeServiceWrapper.has_load. cbn.
  destruct (_ !! "load"); cbn; destruct (_ !! "process"); reflexivity.
Qed.

Lemma server_process_before_load_witness :
  orchestrator.process samples_server.ProcessContext 7 samples_server.fresh
  = (Py.Raise (Py.AttributeError "process"), samples_server.fresh).
Proof.
  exact (server_process_before_load samples_server.ProcessContext
           samples_server.fresh 7 eq_refl).
Defined.

(** X7. The configuration a new server instance reads: a non-empty
    [config_path] is used whatever the environment holds; an empty one
    counts as none; without one the value of [SERVICE_CONFIG_PATH] is used
    when the variable is set, even to the empty string, and
    [./service/config.json] only when it is not set. *)
Theorem server_config_path_precedence
    {S Schema Info HostConfig : Type}
    (environ : gmap string string)
    (open_configuration :
       string -> orchestrator.Configuration Schema Info HostConfig)
    (get_service_loader : string -> orchestrator.ServiceLoader S)
    (host_type : string) (printed : list string) :
  (forall path, path <> "" ->
     orchestrator.__config
       (orchestrator.__init__ environ open_configuration get_service_loader
          host_type (Some path) printed)
     = open_configuration path)
  /\ orchestrator.__init__ environ open_configuration get_service_loader
       host_type (Some "") printed
     = orchestrator.__init__ environ open_configuration get_service_loader
         host_type None printed
  /\ (forall path, environ !! "SERVICE_CONFIG_PATH" = Some path ->
        orchestrator.__config
          (orchestrator.__init__ environ open_configuration
             get_service_loader host_type None printed)
        = open_configuration path)
  /\ (environ !! "SERVICE_CONFIG_PATH" = None ->
      orchestrator.__config
        (orchestrator.__init__ environ open_configuration
           get_service_loader host_type None printed)
      = open_configuration "./service/config.json").
Proof.
  repeat apply conj.
  - intros path Hp. unfold orchestrator.__init__. cbn.
    destruct (String.eqb_spec path ""); [contradiction | reflexivity].
  - reflexivity.
  - intros path He. unfold orchestrator.__init__. cbn. now rewrite He.
  - intros He. unfold orchestrator.__init__. cbn. now rewrite He.
Qed.

Lemma server_config_path_precedence_witness :
  orchestrator.service
    (orchestrator.__config
       (orchestrator.__init__ {[ "SERVICE_CONFIG_PATH" := "/srv/a.json" ]}
          samples_server.open_configuration samples_server.get_service_loader
          "cli" (Some "b.json") []))
  = "recorder"
  /\ orchestrator.service
       (orchestrator.__config
          (orchestrator.__init__ {[ "SERVICE_CONFIG_PATH" := "" ]}
             samples_server.open_configuration
             samples_server.get_service_loader "cli" None []))
     = ""
  /\ orchestrator.service (orchestrator.__config samples_server.fresh)
     = "recorder".
Proof.
  split; [|split].
  - exact (f_equal orchestrator.service
             (proj1 (server_config_path_precedence
                       {[ "SERVICE_CONFIG_PATH" := "/srv/a.json" ]}
                       samples_server.open_configuration
                       samples_server.get_service_loader "cli" [])
                "b.json" ltac:(discriminate))).
  - exact (f_equal orchestrator.service
             (proj1 (proj2 (proj2 (server_config_path_precedence
                       {[ "SERVICE_CONFIG_PATH" := "" ]}
                       samples_server.open_configuration
                       samples_server.get_service_loader "cli" [])))
                "" eq_refl)).
  - exact (f_equal orchestrator.service
             (proj2 (proj2 (proj2 (server_config_path_precedence
                       ∅ samples_server.open_configuration
                       samples_server.get_service_loader "cli" [])))
                eq_refl)).
Defined.

(** X8. [ServerInstance.get_parameter_real_path_value] reads the parameter
    store for every name and never raises: it does not run the name
    validator. The configuration context source over the same
    configuration, asked for an optional path, does the same read for a
    valid name and refuses an invalid one without reading. *)
Theorem server_real_path_not_validated
    {S Schema Info HostConfig : Type}
    (is_valid : string -> bool)
    (self : orchestrator.t S Schema Info HostConfig)
    (name : string) (journal : list server.Query) :
  let store := server.parameters
                 (orchestrator.core (orchestrator.__config self)) in
  orchestrator.get_parameter_real_path_value self name journal
  = (Py.Return (server.get_real_path_value store name),
     (journal ++ [server.QRealPath name])%list)
  /\ server._ServiceConfigurationServiceContextSource.get_parameter_real_path_value
       is_valid
       (server._ServiceConfigurationServiceContextSource.__init__
          (orchestrator.core (orchestrator.__config self)))
       name false journal
     = if is_valid name
       then orchestrator.get_parameter_real_path_value self name journal
       else (Py.Raise (Py.NamingViolation name), journal).
Proof.
  cbv zeta. split; [reflexivity|].
  unfold server._ServiceConfigurationServiceContextSource.get_parameter_real_path_value,
    server.raise_if_invalid, Py.bind.
  destruct (is_valid name); reflexivity.
Qed.

(** ** The wrapper's helpers, awaited *)

Section HelperFacts.
Import Py server.SafeServiceWrapper.
Context {S : Type}.

Lemma set_service_state_same (st : Store S) :
  set_service_state S (service_state st) st = st.
Proof. now destruct st. Qed.

Lemma call_def (body : list Value -> M S Value) args (st : Store S) :
  await (_call_maybe_coroutine (def body) args) st = in_service (body args) st.
Proof.
  unfold await, _call_maybe_coroutine, def, in_service, bind, ret.
  destruct (body args (service_state st)) as [[v|e] s']; reflexivity.
Qed.

Lemma call_async_def (body : list Value -> M S Value) args (st : Store S) :
  await (_call_maybe_coroutine (async_def body) args) st
  = in_service (body args) st.
Proof.
  unfold await, _call_maybe_coroutine, async_def, in_service, bind, ret.
  cbn. now destruct st.
Qed.

End HelperFacts.

(** X9. Awaited, [_call_maybe_coroutine] does the same for a plain [def]
    and for an [async def] with the same body: the body runs once on the
    service, and its return value or its exception is the helper's. *)
Theorem call_maybe_coroutine_normalises
    {S : Type}
    (body : list server.SafeServiceWrapper.Value
            -> Py.M S server.SafeServiceWrapper.Value)
    (args : list server.SafeServiceWrapper.Value)
    (st : server.SafeServiceWrapper.Store S) :
  let ran := body args (server.SafeServiceWrapper.service_state st) in
  server.SafeServiceWrapper.await
    (server.SafeServiceWrapper._call_maybe_coroutine
       (server.SafeServiceWrapper.def body) args) st
  = (fst ran, server.SafeServiceWrapper.set_service_state S (snd ran) st)
  /\ server.SafeServiceWrapper.await
       (server.SafeServiceWrapper._call_maybe_coroutine
          (server.SafeServiceWrapper.async_def body) args) st
     = (fst ran, server.SafeServiceWrapper.set_service_state S (snd ran) st).
Proof.
  cbv zeta. rewrite call_def, call_async_def.
  unfold server.SafeServiceWrapper.in_service.
  destruct (body args _); split; reflexivity.
Qed.

(** X10. Awaited, [_try_call_maybe_coroutine] returns [False] and touches
    nothing when the object lacks the attribute. When the attribute is a
    method, plain or [async], the body runs once; the helper returns
    [None] whatever the body returned, and an exception of the body comes
    out of the helper unchanged. *)
Theorem try_call_maybe_coroutine_outcomes
    {S : Type}
    (inst : server.SafeServiceWrapper.Service S) (func_name : string)
    (body : list server.SafeServiceWrapper.Value
            -> Py.M S server.SafeServiceWrapper.Value)
    (args : list server.SafeServiceWrapper.Value)
    (st : server.SafeServiceWrapper.Store S) :
  (inst !! func_name = None ->
   server.SafeServiceWrapper.await
     (server.SafeServiceWrapper._try_call_maybe_coroutine inst func_name args)
     st
   = (Py.Return (server.SafeServiceWrapper.VBool false), st))
  /\ (inst !! func_name = Some (server.SafeServiceWrapper.def body)
      \/ inst !! func_name = Some (server.SafeServiceWrapper.async_def body) ->
      let ran := body args (server.SafeServiceWrapper.service_state st) in
      server.SafeServiceWrapper.await
        (server.SafeServiceWrapper._try_call_maybe_coroutine
           inst func_name args) st
      = (match fst ran with
         | Py.Return _ => Py.Return server.SafeServiceWrapper.VNone
         | Py.Raise e => Py.Raise e
         end,
         server.SafeServiceWrapper.set_service_state S (snd ran) st)).
Proof.
  split.
  - intros Hn. unfold server.SafeServiceWrapper.await,
      server.SafeServiceWrapper._try_call_maybe_coroutine. now rewrite Hn.
  - intros Hm. cbv zeta.
    unfold server.SafeServiceWrapper._try_call_maybe_coroutine.
    assert (Hrun : forall func,
      server.SafeServiceWrapper.await
        (server.SafeServiceWrapper._call_maybe_coroutine func args) st
      = server.SafeServiceWrapper.in_service (body args) st ->
      server.SafeServiceWrapper.await
        (Py.bind (server.SafeServiceWrapper.await
                    (server.SafeServiceWrapper._call_maybe_coroutine func args))
           (fun _ => Py.ret server.SafeServiceWrapper.VNone)) st
      = (match fst (body args (server.SafeServiceWrapper.service_state st)) with
         | Py.Return _ => Py.Return server.SafeServiceWrapper.VNone
         | Py.Raise e => Py.Raise e
         end,
         server.SafeServiceWrapper.set_service_state S
           (snd (body args (server.SafeServiceWrapper.service_state st))) st)).
    { intros func Hf. unfold server.SafeServiceWrapper.await in *.
      unfold Py.bind at 1. rewrite Hf.
      unfold server.SafeServiceWrapper.in_service.
      destruct (body args _) as [[v|e] s']; reflexivity. }
    destruct Hm as [-> | ->]; apply Hrun.
    + apply call_def.
    + apply call_async_def.
Qed.

Lemma try_call_maybe_coroutine_outcomes_witness :
  server.SafeServiceWrapper.await
    (server.SafeServiceWrapper._try_call_maybe_coroutine
       samples.failing_dispose_service "load" [])
    (server.SafeServiceWrapper.__init__ samples.failing_dispose_service [])
  = (Py.Return (server.SafeServiceWrapper.VBool false),
     server.SafeServiceWrapper.__init__ samples.failing_dispose_service [])
  /\ server.SafeServiceWrapper.await
       (server.SafeServiceWrapper._try_call_maybe_coroutine
          samples.recording_service "process" [samples.ctx])
       (server.SafeServiceWrapper.__init__ samples.recording_service [])
     = (Py.Return server.SafeServiceWrapper.VNone,
        server.SafeServiceWrapper.set_service_state (list string) ["process"]
          (server.SafeServiceWrapper.__init__ samples.recording_service [])).
Proof.
  split.
  - exact (proj1 (try_call_maybe_coroutine_outcomes
                    samples.failing_dispose_service "load"
                    (fun _ => Py.ret server.SafeServiceWrapper.VNone) []
                    (server.SafeServiceWrapper.__init__
                       samples.failing_dispose_service []))
             eq_refl).
  - exact (proj2 (try_call_maybe_coroutine_outcomes
                    samples.recording_service "process"
                    (samples.journalled "process"
                       (server.SafeServiceWrapper.VStr "prediction"))
                    [samples.ctx]
                    (server.SafeServiceWrapper.__init__
                       samples.recording_service []))
             (or_introl eq_refl)).
Defined.

(** ** More on the configuration context source *)

(** X11. For a valid name, [get_parameter_real_path_value] reads the store
    once and returns the path it holds, the empty path included, whatever
    [required] is; when the store holds none it raises
    [MissingParameterError] for that name if [required] and returns null
    otherwise. *)
Theorem real_path_value_returned_as_is
    (is_valid : string -> bool)
    (self : server._ServiceConfigurationServiceContextSource.t)
    (name : string) (required : bool) (journal : list server.Query) :
  is_valid name = true ->
  server._ServiceConfigurationServiceContextSource.get_parameter_real_path_value
    is_valid self name required journal
  = (match server.get_real_path_value
             (server._ServiceConfigurationServiceContextSource.__parameters
                self) name with
     | Some path => Py.Return (Some path)
     | None => if required
               then Py.Raise (Py.MissingParameterError name)
               else Py.Return None
     end,
     (journal ++ [server.QRealPath name])%list).
Proof.
  intros Hv.
  unfold server._ServiceConfigurationServiceContextSource.get_parameter_real_path_value,
    server.raise_if_invalid, server.read_real_path_value, Py.bind.
  rewrite Hv. cbn.
  destruct (server.get_real_path_value _ name), required; reflexivity.
Qed.

Lemma real_path_value_returned_as_is_witness :
  server._ServiceConfigurationServiceContextSource.get_parameter_real_path_value
    (fun name => negb (String.eqb name ""))
    (server._ServiceConfigurationServiceContextSource.mk
       (server.mkParameters (fun _ => None) (fun _ => Some "")))
    "Model" true []
  = (Py.Return (Some ""), [server.QRealPath "Model"]).
Proof.
  exact (real_path_value_returned_as_is
           (fun name => negb (String.eqb name ""))
           (server._ServiceConfigurationServiceContextSource.mk
              (server.mkParameters (fun _ => None) (fun _ => Some "")))
           "Model" true [] eq_refl).
Defined.

(** X12. With a non-null default, [get_parameter_value] of a valid name
    never raises and never returns null, and [required] plays no part: the
    result is the configured value when that is a non-empty string and the
    default, even an empty one, otherwise. *)
Theorem default_makes_lookup_total
    (is_valid : string -> bool)
    (self : server._ServiceConfigurationServiceContextSource.t)
    (name : string) (required : bool) (d : string)
    (journal : list server.Query) :
  is_valid name = true ->
  fst (server._ServiceConfigurationServiceContextSource.get_parameter_value
         is_valid self name required (Some d) journal)
  = Py.Return
      (Some match server.get_value
                    (server._ServiceConfigurationServiceContextSource.__parameters
                       self) name with
            | Some s => if String.eqb s "" then d else s
            | None => d
            end).
Proof.
  intros Hv. rewrite get_parameter_value_valid by assumption. cbn [fst].
  unfold Py.or_, Py.truthy.
  destruct (server.get_value _ name) as [s|]; cbn.
  - destruct (String.eqb s ""); cbn; now rewrite andb_false_r.
  - now rewrite andb_false_r.
Qed.

Lemma default_makes_lookup_total_witness :
  fst (server._ServiceConfigurationServiceContextSource.get_parameter_value
         (fun name => negb (String.eqb name ""))
         (server._ServiceConfigurationServiceContextSource.mk
            (server.mkParameters (fun _ => Some "") (fun _ => None)))
         "Foo" true (Some "") [])
  = Py.Return (Some "").
Proof.
  exact (default_makes_lookup_total
           (fun name => negb (String.eqb name ""))
           (server._ServiceConfigurationServiceContextSource.mk
              (server.mkParameters (fun _ => Some "") (fun _ => None)))
           "Foo" true "" [] eq_refl).
Defined.

(** ** More on the error taxonomy *)

Section ErrorShape.
Import errors taxonomy.

(** The instance a truthy message leads to. *)
Lemma construct_given_shape c name field_name (m : string) :
  m <> "" ->
  construct c name field_name (Some m)
  = Some (let base := setattr (setattr (new c) "name" name) "message" m in
          match c with
          | cls_DatasetFieldError | cls_MissingDatasetFieldError =>
              setattr base "field_name" field_name
          | _ => base
          end).
Proof.
  intros Hm.
  destruct c; unfold construct, BadRequestError, BadParameterError,
    BadDatasetError, DatasetFieldError, MissingDatasetFieldError,
    MissingDatasetFieldError__init__, DatasetFieldError__init__,
    BadDatasetError__init__, BadParameterError__init__;
    repeat (rewrite message_or_given by assumption; cbn [mbind option_bind]);
    rewrite BadRequestError__init__given by assumption;
    reflexivity.
Qed.

Lemma construct_shape c name field_name (message : option string) :
  exists m,
    m <> ""
    /\ construct c name field_name message
       = Some (let base := setattr (setattr (new c) "name" name) "message" m in
               match c with
               | cls_DatasetFieldError | cls_MissingDatasetFieldError =>
                   setattr base "field_name" field_name
               | _ => base
               end).
Proof.
  destruct (Py.truthy message) eqn:Ht.
  - destruct message as [m|]; [|discriminate]. exists m.
    assert (Hm : m <> "").
    { intros ->. discriminate. }
    split; [exact Hm | now apply construct_given_shape].
  - exists (default_message c name field_name).
    split; [apply default_message_nonempty|].
    rewrite (construct_falsy c name field_name message Ht).
    apply construct_given_shape, default_message_nonempty.
Qed.

End ErrorShape.

(** X13. Whatever message is passed, none, the empty one or a text,
    constructing an error of any class succeeds and the error's [message]
    is a non-empty string. *)
Theorem error_message_never_empty
    (c : errors.Class) (name field_name : string) (message : option string) :
  exists self m,
    taxonomy.construct c name field_name message = Some self
    /\ errors.getattr self "message" = Some m
    /\ m <> "".
Proof.
  destruct (construct_shape c name field_name message) as (m & Hm & ->).
  eexists _, m. split; [reflexivity|]. split; [|exact Hm].
  destruct c; unfold errors.getattr, errors.setattr; cbn;
    by simplify_map_eq.
Qed.


(** X15. [ServerInstance.load] prints the line announcing the service it
    got and then, only when that service has a [load] attribute, the line
    [service.load]; [process] and [dispose] print nothing. *)
Theorem server_load_prints
    {S Schema Info HostConfig ContextSource : Type}
    (ServiceContext : ContextSource -> string -> server.SafeServiceWrapper.Value)
    (ProcessContext : ContextSource -> server.SafeServiceWrapper.Value)
    (of_coalescing :
       server.ServerInstance.CoalescingServiceContextSource -> ContextSource)
    (self : orchestrator.t S Schema Info HostConfig)
    (load_source : option ContextSource) (ctx_source : ContextSource) :
  let loader := orchestrator.__service_instance_loader self in
  orchestrator.stdout
    (snd (orchestrator.load ServiceContext of_coalescing load_source self))
  = (orchestrator.stdout self
       ++ ("Got service: " ++ orchestrator.instance_str loader)%string
          :: (if Py.is_None (fst (orchestrator.get_instance loader) !! "load")
              then []
              else ["service.load"]))%list
  /\ orchestrator.stdout
       (snd (orchestrator.process ProcessContext ctx_source self))
     = orchestrator.stdout self
  /\ orchestrator.stdout (snd (orchestrator.dispose self))
     = orchestrator.stdout self.
Proof.
  cbv zeta. rewrite o_load_run, o_process_run, o_dispose_run.
  cbn [snd orchestrator.stdout]. repeat split.
  destruct (Py.is_None _); cbn; now rewrite <- app_assoc.
Qed.
